(** * RAMKAR MFS v2.6 decision engine (app.py): validation, factor scorers,
    gates, weighted aggregation, hysteresis regime machine and budget.

    Numbers: the Python floats of the observation are modelled as exact
    rationals [Q]; sub-scores, the total score and week counters are Python
    ints, modelled as [Z].  Python's comparisons [<], [<=] on floats become
    [qlt] and [qle] below.  The display labels of the scorers (emoji status
    strings) are not modelled; the messages of [validate_data] are modelled
    by a tag carrying the formatted value, and the transition notes of
    [get_regime_with_hysteresis] by a tag carrying the formatted values. *)

From Stdlib Require Import ZArith QArith Qround Qabs String List Bool Lia Lqa.
Import ListNotations.
Open Scope Z_scope.

(** ** Python numerics on [Q] *)

Definition qle (x y : Q) : bool := Qle_bool x y.
Definition qlt (x y : Q) : bool := negb (Qle_bool y x).

(** [max(lo, min(hi, x))] *)
Definition clamp (x lo hi : Q) : Q :=
  let m := if qlt x hi then x else hi in
  if qlt lo m then m else lo.

(** [bar10]: the string ["█" * filled + "░" * (10 - filled)], as a list of
    its characters ([Full] for ["█"], [Blank] for ["░"]); Python's ["x" * n]
    is empty for [n <= 0], as [repeat] at [Z.to_nat n]. *)
Inductive bar_cell := Full | Blank.

Definition bar_cell_eq_dec (a b : bar_cell) : {a = b} + {a <> b}.
Proof. decide equality. Defined.

Definition bar10 (score : Z) : list bar_cell :=
  let score := Z.max 0 (Z.min 100 score) in
  let filled := score / 10 in
  repeat Full (Z.to_nat filled) ++ repeat Blank (Z.to_nat (10 - filled)).

(** Python's [round(x)] on a number: nearest integer, ties to even. *)
Definition py_round (x : Q) : Z :=
  let f := Qfloor x in
  let r := (x - inject_Z f)%Q in
  if qlt r (1#2) then f
  else if qlt (1#2) r then f + 1
  else if Z.even f then f else f + 1.

(** Python's [round(x, 1)]. *)
Definition py_round1 (x : Q) : Q := (inject_Z (py_round (x * 10)) / 10)%Q.

(** ** Configuration ([TH], [HYSTERESIS], [DATA_LIMITS], [BUDGET_REDUCTIONS], [W]) *)

Definition K1_USDTRY_SHOCK : Q := 5#100.
Definition K2_CDS_SPIKE : Q := 100.
Definition K2_CDS_LEVEL : Q := 700.
Definition K3_VIX : Q := 35.
Definition K3_SP500 : Q := -3#100.
Definition K4_XBANK_DROP : Q := -5#100.
Definition K4_XU100_STABLE : Q := -1#100.
Definition K5_VOLUME_RATIO : Q := 5#10.

Definition ON_TO_NEUTRAL : Z := 57.
Definition NEUTRAL_TO_ON : Z := 63.
Definition NEUTRAL_TO_OFF : Z := 37.
Definition OFF_TO_NEUTRAL : Z := 43.
Definition CONFIRM_WEEKS : Z := 2.

Definition USDTRY_MAX_WEEKLY : Q := 10#100.
Definition USDTRY_WARN_WEEKLY : Q := 5#100.
Definition CDS_MAX_WEEKLY : Q := 150.
Definition CDS_WARN_WEEKLY : Q := 75.
Definition CDS_MIN : Q := 50.
Definition CDS_MAX : Q := 1500.
Definition VIX_MIN : Q := 8.
Definition VIX_MAX : Q := 60.

Definition BUDGET_REDUCTION_K4 : Q := 25#100.
Definition BUDGET_REDUCTION_K5 : Q := 15#100.

Definition W_doviz : Q := 30#100.
Definition W_cds : Q := 25#100.
Definition W_global : Q := 25#100.
Definition W_faiz : Q := 15#100.
Definition W_likidite : Q := 5#100.

(** ** Data validation ([validate_data]) *)

Inductive message :=
| ErrUsdtryHigh (x : Q)
| WarnUsdtryHigh (x : Q)
| ErrCdsLow (x : Q)
| ErrCdsHigh (x : Q)
| ErrCdsDeltaHigh (x : Q)
| WarnCdsDeltaHigh (x : Q)
| ErrVixLow (x : Q)
| ErrVixHigh (x : Q)
| WarnCdsDownTlWeak
| WarnCdsUpTlStrong
| WarnVixHighSpPositive.

Record ValidationResult := {
  is_valid : bool;
  confidence : string;
  errors : list message;
  warnings : list message
}.

Definition validate_data (usdtry_wchg cds_level cds_wdelta vix_last sp500_wchg : Q)
  : ValidationResult :=
  let '(errors, warnings) := (@nil message, @nil message) in
  let '(errors, warnings) :=
    if qlt USDTRY_MAX_WEEKLY (Qabs usdtry_wchg) then (errors ++ [ErrUsdtryHigh usdtry_wchg], warnings)
    else if qlt USDTRY_WARN_WEEKLY (Qabs usdtry_wchg) then (errors, warnings ++ [WarnUsdtryHigh usdtry_wchg])
    else (errors, warnings) in
  let errors :=
    if qlt cds_level CDS_MIN then errors ++ [ErrCdsLow cds_level]
    else if qlt CDS_MAX cds_level then errors ++ [ErrCdsHigh cds_level]
    else errors in
  let '(errors, warnings) :=
    if qlt CDS_MAX_WEEKLY (Qabs cds_wdelta) then (errors ++ [ErrCdsDeltaHigh cds_wdelta], warnings)
    else if qlt CDS_WARN_WEEKLY (Qabs cds_wdelta) then (errors, warnings ++ [WarnCdsDeltaHigh cds_wdelta])
    else (errors, warnings) in
  let errors :=
    if qlt vix_last VIX_MIN then errors ++ [ErrVixLow vix_last]
    else if qlt VIX_MAX vix_last then errors ++ [ErrVixHigh vix_last]
    else errors in
  let warnings :=
    if qlt cds_wdelta (-30) && qlt (3#100) usdtry_wchg
    then warnings ++ [WarnCdsDownTlWeak] else warnings in
  let warnings :=
    if qlt 50 cds_wdelta && qlt usdtry_wchg (-2#100)
    then warnings ++ [WarnCdsUpTlStrong] else warnings in
  let warnings :=
    if qlt 30 vix_last && qlt (2#100) sp500_wchg
    then warnings ++ [WarnVixHighSpPositive] else warnings in
  let '(confidence, is_valid) :=
    match errors, warnings with
    | _ :: _, _ => ("LOW"%string, false)
    | [], w => if (2 <=? Z.of_nat (length w)) then ("MEDIUM"%string, true)
               else match w with
                    | _ :: _ => ("MEDIUM"%string, true)
                    | [] => ("HIGH"%string, true)
                    end
    end in
  {| is_valid := is_valid; confidence := confidence;
     errors := errors; warnings := warnings |}.

(** ** Regime machine ([get_regime_with_hysteresis]) *)

(** Formatted parts of the transition note. *)
Inductive cause :=
| ScoreBelow (threshold : Z)
| ScoreAbove (threshold : Z).

Inductive note :=
| NoteEmpty
| NoteFirstEvaluation
| NoteStaying (regime : string)
| NoteKillLifted
| NoteConfirmed (weeks : Z) (target : string)
| NotePending (remaining : Z) (why : cause).

(** Immediate thresholds used on the first cycle and when leaving OFF-KILL. *)
Definition immediate_regime (current_score : Z) : string :=
  if 60 <=? current_score then "ON"
  else if 40 <=? current_score then "NEUTRAL"
  else "OFF".

(** Either an early [return] of the Python body ([inl]) or the value of
    [target_regime] (with its note) when control reaches [if target_regime]. *)
Definition hysteresis_branch (current_score : Z) (previous_regime : string)
  : (string * Z * note) + option (string * cause) :=
  if String.eqb previous_regime "ON" then
    if current_score <? ON_TO_NEUTRAL then inr (Some ("NEUTRAL"%string, ScoreBelow ON_TO_NEUTRAL))
    else inl ("ON"%string, 0, NoteStaying "ON")
  else if String.eqb previous_regime "NEUTRAL" then
    if NEUTRAL_TO_ON <? current_score then inr (Some ("ON"%string, ScoreAbove NEUTRAL_TO_ON))
    else if current_score <? NEUTRAL_TO_OFF then inr (Some ("OFF"%string, ScoreBelow NEUTRAL_TO_OFF))
    else inl ("NEUTRAL"%string, 0, NoteStaying "NEUTRAL")
  else if String.eqb previous_regime "OFF" then
    if OFF_TO_NEUTRAL <? current_score then inr (Some ("NEUTRAL"%string, ScoreAbove OFF_TO_NEUTRAL))
    else inl ("OFF"%string, 0, NoteStaying "OFF")
  else if String.eqb previous_regime "OFF-KILL" then
    inl (immediate_regime current_score, 0, NoteKillLifted)
  else inr None.

Definition get_regime_with_hysteresis (current_score : Z) (previous_regime : option string)
  (weeks_in_transition : Z) (hard_kill : bool) : string * Z * note :=
  if hard_kill then ("OFF-KILL"%string, 0, NoteEmpty) else
  match previous_regime with
  | None | Some EmptyString => (immediate_regime current_score, 0, NoteFirstEvaluation)
  | Some prev =>
      match hysteresis_branch current_score prev with
      | inl result => result
      | inr (Some (target_regime, why)) =>
          let new_weeks := weeks_in_transition + 1 in
          if CONFIRM_WEEKS <=? new_weeks then (target_regime, 0, NoteConfirmed CONFIRM_WEEKS target_regime)
          else (prev, new_weeks, NotePending (CONFIRM_WEEKS - new_weeks) why)
      | inr None => (prev, 0, NoteEmpty)
      end
  end.

(** ** Factor scorers *)

Definition score_doviz (usdtry_wchg : Q) : Z :=
  let c := Qabs usdtry_wchg in
  if qlt c (5#1000) then 100
  else if qlt c (15#1000) then 70
  else if qlt c (30#1000) then 40
  else if qlt c (50#1000) then 10
  else 0.

Definition score_cds (cds_level cds_wdelta : Q) : Z :=
  let base :=
    if qlt cds_level 300 then 100
    else if qlt cds_level 400 then 70
    else if qlt cds_level 500 then 50
    else if qlt cds_level 600 then 30
    else if qlt cds_level 700 then 10
    else 0 in
  if qlt 50 cds_wdelta then Z.max 0 (base - 20) else base.

Definition score_global (vix_last sp500_wchg : Q) : Z :=
  let base :=
    if qlt vix_last 20 then 100
    else if qlt vix_last 25 then 80
    else if qlt vix_last 30 then 60
    else if qlt vix_last 35 then 40
    else 20 in
  if qlt sp500_wchg (-2#100) then Z.max 0 (base - 20)
  else if qlt sp500_wchg (-1#100) then Z.max 0 (base - 10)
  else base.

Definition score_likidite (volume_ratio : Q) : Z :=
  if qle (12#10) volume_ratio then 100
  else if qle (8#10) volume_ratio then 70
  else if qle (5#10) volume_ratio then 40
  else 10.

(** ** One cycle of the CALCULATIONS block *)

(** The sidebar inputs, after the [% / 100] conversions. *)
Record Observation := {
  usdtry_wchg : Q;
  cds_level : Q;
  cds_wdelta : Q;
  vix_last : Q;
  sp500_wchg : Q;
  xu100_wchg : Q;
  xbank_wchg : Q;
  volume_ratio : Q;
  faiz_score : Z
}.

Record Checks := { K1 : bool; K2 : bool; K3 : bool; K4 : bool; K5 : bool }.

Definition gates (o : Observation) : Checks :=
  {| K1 := qlt (usdtry_wchg o) K1_USDTRY_SHOCK;
     K2 := qlt (cds_level o) K2_CDS_LEVEL && qlt (cds_wdelta o) K2_CDS_SPIKE;
     K3 := negb (qlt K3_VIX (vix_last o) && qle (sp500_wchg o) K3_SP500);
     K4 := negb (qle (xbank_wchg o) K4_XBANK_DROP && qlt K4_XU100_STABLE (xu100_wchg o));
     K5 := qle K5_VOLUME_RATIO (volume_ratio o) |}.

(** [hard_kill], including the manual override of v2.6. *)
Definition hard_kill (c : Checks) (manual_override_active : bool) : bool :=
  let hk := negb (K1 c) || negb (K2 c) || negb (K3 c) in
  if manual_override_active then true else hk.

Definition soft_reduction (c : Checks) : Q :=
  let r := 0%Q in
  let r := if negb (K4 c) then (r + BUDGET_REDUCTION_K4)%Q else r in
  let r := if negb (K5 c) then (r + BUDGET_REDUCTION_K5)%Q else r in
  clamp r 0 (5#10).

Record Scores := { sc_doviz : Z; sc_cds : Z; sc_global : Z; sc_faiz : Z; sc_likidite : Z }.

Definition scores (o : Observation) : Scores :=
  {| sc_doviz := score_doviz (usdtry_wchg o);
     sc_cds := score_cds (cds_level o) (cds_wdelta o);
     sc_global := score_global (vix_last o) (sp500_wchg o);
     sc_faiz := faiz_score o;
     sc_likidite := score_likidite (volume_ratio o) |}.

Definition total (s : Scores) : Z :=
  py_round (inject_Z (sc_doviz s) * W_doviz + inject_Z (sc_cds s) * W_cds
            + inject_Z (sc_global s) * W_global + inject_Z (sc_faiz s) * W_faiz
            + inject_Z (sc_likidite s) * W_likidite)%Q.

(** [BASE_BUDGETS]; the entry labels without their emoji.  A lookup of a key
    outside the dict raises [KeyError] in Python: [None] here. *)
Definition BASE_BUDGETS (regime : string) : option (Z * Q * string) :=
  if String.eqb regime "ON" then Some (12, 25#10, "NORMAL"%string)
  else if String.eqb regime "NEUTRAL" then Some (7, 15#10, "SECICI"%string)
  else if String.eqb regime "OFF" then Some (4, 1%Q, "SINIRLI"%string)
  else if String.eqb regime "OFF-KILL" then Some (2, 5#10, "YASAK"%string)
  else None.

Definition CAUTIOUS : string := "DIKKATLI".

(** [adj_pos, adj_risk, adj_entry] from the base budget. *)
Definition adjust_budget (base : Z * Q * string) (soft_reduction : Q) : Z * Q * string :=
  let '(base_pos, base_risk, base_entry) := base in
  if qlt 0 soft_reduction then
    (Z.max 2 (Qfloor (inject_Z base_pos * (1 - soft_reduction))),
     py_round1 (base_risk * (1 - soft_reduction)),
     if qle (3#10) soft_reduction then CAUTIOUS else base_entry)
  else (base_pos, base_risk, base_entry).

Record Decision := {
  validation : ValidationResult;
  checks : Checks;
  d_hard_kill : bool;
  d_soft_reduction : Q;
  d_scores : Scores;
  d_total : Z;
  regime : string;
  new_weeks : Z;
  transition_note : note;
  base_budget : option (Z * Q * string);
  adjusted_budget : option (Z * Q * string)
}.

(** One run of the script: the observation, the sidebar's previous regime
    ("" for none) and pending weeks, and the session's override flag. *)
Definition cycle (o : Observation) (previous_regime_input : string)
  (weeks_pending : Z) (manual_override_active : bool) : Decision :=
  let v := validate_data (usdtry_wchg o) (cds_level o) (cds_wdelta o) (vix_last o) (sp500_wchg o) in
  let c := gates o in
  let hk := hard_kill c manual_override_active in
  let sr := soft_reduction c in
  let s := scores o in
  let t := total s in
  let prev := if String.eqb previous_regime_input "" then None else Some previous_regime_input in
  let '(r, nw, tn) := get_regime_with_hysteresis t prev weeks_pending hk in
  let b := BASE_BUDGETS r in
  {| validation := v; checks := c; d_hard_kill := hk; d_soft_reduction := sr;
     d_scores := s; d_total := t; regime := r; new_weeks := nw; transition_note := tn;
     base_budget := b;
     adjusted_budget := match b with Some bb => Some (adjust_budget bb sr) | None => None end |}.

(** The baseline inputs of the sidebar (its default values). *)
Definition baseline : Observation :=
  {| usdtry_wchg := 8#1000; cds_level := 204; cds_wdelta := 0; vix_last := 175#10;
     sp500_wchg := 1#100; xu100_wchg := 2#100; xbank_wchg := 25#1000;
     volume_ratio := 1; faiz_score := 60 |}.

(** The state threaded between cycles: the regime and the pending weeks
    returned by [get_regime_with_hysteresis], fed back as its next inputs. *)
Definition hyst_state (current_score : Z) (previous_regime : option string)
  (weeks_in_transition : Z) (hard_kill : bool) : string * Z :=
  let '(r, w, _) := get_regime_with_hysteresis current_score previous_regime weeks_in_transition hard_kill in
  (r, w).

(** Cycles without hard kill over a list of scores, from a given state;
    the list of returned states. *)
Fixpoint run (current_scores : list Z) (previous_regime : option string) (weeks : Z)
  : list (string * Z) :=
  match current_scores with
  | [] => []
  | s :: rest =>
      let '(r, w) := hyst_state s previous_regime weeks false in
      (r, w) :: run rest (Some r) w
  end.

(** ** Basic facts *)

Lemma qlt_true (x y : Q) : qlt x y = true -> (x < y)%Q.
Proof.
  unfold qlt. intro H. apply negb_true_iff in H.
  apply Qnot_le_lt. intro Hle. apply Qle_bool_iff in Hle. congruence.
Qed.

Lemma qlt_false (x y : Q) : qlt x y = false -> (y <= x)%Q.
Proof.
  unfold qlt. intro H. apply negb_false_iff in H. now apply Qle_bool_iff.
Qed.

Lemma qle_true (x y : Q) : qle x y = true -> (x <= y)%Q.
Proof. unfold qle. apply Qle_bool_iff. Qed.

Lemma qle_false (x y : Q) : qle x y = false -> (y < x)%Q.
Proof.
  unfold qle. intro H. apply Qnot_le_lt. intro Hle.
  apply Qle_bool_iff in Hle. congruence.
Qed.

Lemma qlt_true_iff (x y : Q) : qlt x y = true <-> (x < y)%Q.
Proof.
  split; [apply qlt_true|]. intro H.
  destruct (qlt x y) eqn:E; [reflexivity|]. apply qlt_false in E. lra.
Qed.

Lemma qle_true_iff (x y : Q) : qle x y = true <-> (x <= y)%Q.
Proof. unfold qle. apply Qle_bool_iff. Qed.

(** Split on every [qlt]/[qle] test, turning each outcome into an order fact. *)
Ltac split_tests :=
  repeat match goal with
  | |- context [qlt ?a ?b] =>
      let E := fresh "E" in
      destruct (qlt a b) eqn:E; [apply qlt_true in E | apply qlt_false in E];
      cbv beta iota zeta
  | |- context [qle ?a ?b] =>
      let E := fresh "E" in
      destruct (qle a b) eqn:E; [apply qle_true in E | apply qle_false in E];
      cbv beta iota zeta
  end.

Lemma regime_cycle (o : Observation) (p : string) (w : Z) (ovr : bool) :
  (regime (cycle o p w ovr), new_weeks (cycle o p w ovr))
  = hyst_state (total (scores o)) (if String.eqb p "" then None else Some p) w
      (hard_kill (gates o) ovr).
Proof.
  unfold cycle, hyst_state.
  destruct (get_regime_with_hysteresis _ _ _ _) as [[r nw] tn]. reflexivity.
Qed.

Lemma hard_kill_true (o : Observation) (ovr : bool) :
  (K1_USDTRY_SHOCK <= usdtry_wchg o)%Q
  \/ ((K2_CDS_LEVEL <= cds_level o)%Q \/ (K2_CDS_SPIKE <= cds_wdelta o)%Q)
  \/ ((K3_VIX < vix_last o)%Q /\ (sp500_wchg o <= K3_SP500)%Q)
  \/ ovr = true ->
  hard_kill (gates o) ovr = true.
Proof.
  intro H. unfold hard_kill, gates; simpl.
  destruct ovr; [reflexivity|].
  destruct H as [H | [[H | H] | [[H1 H2] | H]]]; try discriminate.
  - destruct (qlt (usdtry_wchg o) K1_USDTRY_SHOCK) eqn:E; [|reflexivity].
    apply qlt_true in E. lra.
  - destruct (qlt (usdtry_wchg o) K1_USDTRY_SHOCK); simpl; [|reflexivity].
    destruct (qlt (cds_level o) K2_CDS_LEVEL) eqn:E; [|reflexivity].
    apply qlt_true in E. lra.
  - destruct (qlt (usdtry_wchg o) K1_USDTRY_SHOCK); simpl; [|reflexivity].
    destruct (qlt (cds_level o) K2_CDS_LEVEL); simpl; [|reflexivity].
    destruct (qlt (cds_wdelta o) K2_CDS_SPIKE) eqn:E; [|reflexivity].
    apply qlt_true in E. lra.
  - apply qlt_true_iff in H1. apply qle_true_iff in H2. rewrite H1, H2.
    simpl. now rewrite !orb_true_r.
Qed.

(** ** Claims *)

(** C1: hard-kill dominance.  If the currency gate (weekly change >= 5%),
    the credit gate (level >= 700bp or weekly delta >= 100bp) or the
    global-panic gate (VIX > 35 and S&P weekly change <= -3%) fails, or the
    manual override is set, the cycle ends in OFF-KILL with 0 pending weeks,
    whatever the scores and the previous regime. *)
Theorem hard_kill_dominance (o : Observation) (previous_regime_input : string)
  (weeks_pending : Z) (manual_override_active : bool)
  (Hkill : (K1_USDTRY_SHOCK <= usdtry_wchg o)%Q
           \/ ((K2_CDS_LEVEL <= cds_level o)%Q \/ (K2_CDS_SPIKE <= cds_wdelta o)%Q)
           \/ ((K3_VIX < vix_last o)%Q /\ (sp500_wchg o <= K3_SP500)%Q)
           \/ manual_override_active = true) :
  regime (cycle o previous_regime_input weeks_pending manual_override_active) = "OFF-KILL"%string
  /\ new_weeks (cycle o previous_regime_input weeks_pending manual_override_active) = 0.
Proof.
  pose proof (regime_cycle o previous_regime_input weeks_pending manual_override_active) as E.
  rewrite (hard_kill_true o manual_override_active Hkill) in E.
  unfold hyst_state in E. simpl in E. injection E as E1 E2. now split.
Qed.

(** Instance of C1: a 6% currency move with the sidebar's other defaults,
    previous regime ON. *)
Lemma hard_kill_dominance_witness :
  regime (cycle {| usdtry_wchg := 6#100; cds_level := 204; cds_wdelta := 0; vix_last := 175#10;
                   sp500_wchg := 1#100; xu100_wchg := 2#100; xbank_wchg := 25#1000;
                   volume_ratio := 1; faiz_score := 60 |} "ON" 0 false) = "OFF-KILL"%string
  /\ new_weeks (cycle {| usdtry_wchg := 6#100; cds_level := 204; cds_wdelta := 0; vix_last := 175#10;
                   sp500_wchg := 1#100; xu100_wchg := 2#100; xbank_wchg := 25#1000;
                   volume_ratio := 1; faiz_score := 60 |} "ON" 0 false) = 0.
Proof.
  apply hard_kill_dominance. left. unfold K1_USDTRY_SHOCK. simpl. vm_compute. discriminate.
Defined.

(** The sub-scores, total and budget the spec's baseline scenario expects:
    FX 100, Credit 70, Global 100, Rate 60, Liquidity 70, total 85. *)
Definition baseline_as_specified (d : Decision) : Prop :=
  checks d = {| K1 := true; K2 := true; K3 := true; K4 := true; K5 := true |}
  /\ d_scores d = {| sc_doviz := 100; sc_cds := 70; sc_global := 100; sc_faiz := 60; sc_likidite := 70 |}
  /\ d_total d = 85
  /\ regime d = "ON"%string
  /\ adjusted_budget d = Some (12, 25#10, "NORMAL"%string).

(** C2 (counterexample): on the baseline inputs the cycle does not produce
    the FX/Credit sub-scores and total of the spec's scenario: the currency
    move of 0.8% is not below 0.5%, so FX scores 70. *)
Lemma baseline_scenario_counterexample :
  ~ baseline_as_specified (cycle baseline "ON" 0 false).
Proof.
  intros [_ [Hs _]]. vm_compute in Hs. discriminate Hs.
Qed.

(** C2 (amended): on the baseline inputs (currency +0.8%, spread 204bp with
    delta 0bp, VIX 17.5, S&P +1.0%, XU100 +2.0%, XBANK +2.5%, volume ratio
    1.0, rate proxy 60, previous regime ON, 0 pending weeks, no override),
    all five gates pass, the sub-scores are FX 70, Credit 100, Global 100,
    Rate 60, Liquidity 70, the total is round(83.5) = 84, the regime stays ON
    with 0 pending weeks, the validation grade is HIGH, and the adjusted
    budget is the base budget (12 positions, 2.5 risk). *)
Theorem baseline_scenario :
  let d := cycle baseline "ON" 0 false in
  checks d = {| K1 := true; K2 := true; K3 := true; K4 := true; K5 := true |}
  /\ d_scores d = {| sc_doviz := 70; sc_cds := 100; sc_global := 100; sc_faiz := 60; sc_likidite := 70 |}
  /\ d_total d = 84
  /\ regime d = "ON"%string
  /\ new_weeks d = 0
  /\ confidence (validation d) = "HIGH"%string
  /\ base_budget d = Some (12, 25#10, "NORMAL"%string)
  /\ adjusted_budget d = base_budget d.
Proof. vm_compute. repeat split. Qed.

(** C3: from ON with 0 pending weeks and no hard kill, two consecutive
    scores below 57 keep ON with 1 pending week on the first cycle and commit
    to NEUTRAL with 0 pending weeks on the second. *)
Theorem hysteresis_commit (s1 s2 : Z) (H1 : s1 < 57) (H2 : s2 < 57) :
  run [s1; s2] (Some "ON"%string) 0 = [("ON"%string, 1); ("NEUTRAL"%string, 0)].
Proof.
  unfold run, hyst_state, get_regime_with_hysteresis, hysteresis_branch, ON_TO_NEUTRAL; simpl.
  replace (s1 <? 57) with true by (symmetry; apply Z.ltb_lt; exact H1).
  replace (s2 <? 57) with true by (symmetry; apply Z.ltb_lt; exact H2).
  reflexivity.
Qed.

Lemma hysteresis_commit_witness :
  run [56; 40] (Some "ON"%string) 0 = [("ON"%string, 1); ("NEUTRAL"%string, 0)].
Proof. apply hysteresis_commit; lia. Defined.

(** C4: from ON with 0 pending weeks and no hard kill, a score alternating
    between 58 and 56 over 5 cycles (either way round), each cycle fed the
    previous cycle's state, keeps the regime ON on every cycle. *)
Theorem hysteresis_stability :
  run [58; 56; 58; 56; 58] (Some "ON"%string) 0
    = [("ON"%string, 0); ("ON"%string, 1); ("ON"%string, 0); ("ON"%string, 1); ("ON"%string, 0)]
  /\ run [56; 58; 56; 58; 56] (Some "ON"%string) 0
    = [("ON"%string, 1); ("ON"%string, 0); ("ON"%string, 1); ("ON"%string, 0); ("ON"%string, 1)]
  /\ Forall (fun st => fst st = "ON"%string) (run [58; 56; 58; 56; 58] (Some "ON"%string) 0)
  /\ Forall (fun st => fst st = "ON"%string) (run [56; 58; 56; 58; 56] (Some "ON"%string) 0).
Proof. vm_compute. repeat split; repeat constructor. Qed.

(** C5: without hard kill, on the first cycle (no previous regime, [None]
    or "") and when the previous regime is OFF-KILL, the regime is chosen at
    once: ON if the score is >= 60, NEUTRAL if >= 40, else OFF, with 0
    pending weeks, whatever the pending weeks given. *)
Theorem immediate_thresholds (current_score weeks : Z) (previous_regime : option string)
  (Hprev : previous_regime = None \/ previous_regime = Some ""%string
           \/ previous_regime = Some "OFF-KILL"%string) :
  hyst_state current_score previous_regime weeks false
  = (if 60 <=? current_score then "ON"%string
     else if 40 <=? current_score then "NEUTRAL"%string else "OFF"%string, 0).
Proof.
  destruct Hprev as [-> | [-> | ->]]; reflexivity.
Qed.

Lemma immediate_thresholds_witness :
  hyst_state 50 (Some "OFF-KILL"%string) 1 false = ("NEUTRAL"%string, 0).
Proof. apply (immediate_thresholds 50 1 (Some "OFF-KILL"%string)). right; right; reflexivity. Defined.



(** The grade of a validation result, as a function of its two lists. *)
Definition graded (v : ValidationResult) : Prop :=
  (confidence v, is_valid v)
  = match errors v, warnings v with
    | _ :: _, _ => ("LOW"%string, false)
    | [], [] => ("HIGH"%string, true)
    | [], _ :: _ => ("MEDIUM"%string, true)
    end.

(** The grade of [validate_data] depends only on its error and warning
    lists: each list-building step is generalized, then the final grading
    block is evaluated on the shapes of the two lists. *)
Lemma validate_data_grade (usdtry_wchg cds_level cds_wdelta vix_last sp500_wchg : Q) :
  graded (validate_data usdtry_wchg cds_level cds_wdelta vix_last sp500_wchg).
Proof.
  unfold validate_data.
  do 2 lazymatch goal with
       | |- graded (match ?X with _ => _ end) => destruct X
       end.
  lazymatch goal with
  | |- graded (match (match ?E with _ => _ end) with _ => _ end) =>
      generalize E as errs; intro errs
  end.
  lazymatch goal with
  | |- context [Datatypes.length ?W] => generalize W as warns; intro warns
  end.
  unfold graded.
  destruct errs as [|e errs], warns as [|w warns]; simpl; try reflexivity.
  destruct (2 <=? _); reflexivity.
Qed.

(** C7: the validation grade is LOW exactly when there is an error, MEDIUM
    exactly when there is no error and at least one warning, HIGH exactly
    when there is neither; the result is invalid exactly when there is an
    error, so warnings alone never make it invalid. *)
Theorem validation_grading (usdtry_wchg cds_level cds_wdelta vix_last sp500_wchg : Q) :
  let v := validate_data usdtry_wchg cds_level cds_wdelta vix_last sp500_wchg in
  (confidence v = "LOW"%string <-> errors v <> [])
  /\ (confidence v = "MEDIUM"%string <-> errors v = [] /\ warnings v <> [])
  /\ (confidence v = "HIGH"%string <-> errors v = [] /\ warnings v = [])
  /\ (is_valid v = false <-> errors v <> []).
Proof.
  pose proof (validate_data_grade usdtry_wchg cds_level cds_wdelta vix_last sp500_wchg) as G.
  unfold graded in G. cbv zeta.
  destruct (validate_data _ _ _ _ _) as [iv conf errs warns]; simpl in *.
  destruct errs as [|e errs], warns as [|w warns]; injection G as -> ->;
  repeat split; intros; try discriminate; try congruence;
  repeat match goal with
         | H : _ /\ _ |- _ => destruct H
         end; congruence.
Qed.

(** C10: whatever the score, previous regime, hard-kill flag and
    non-negative pending weeks given (even at or above the window), the
    returned pending weeks are non-negative and below the confirmation window
    of 2; they are 0 unless the note reports a pending transition. *)
Theorem pending_below_window (current_score weeks : Z) (previous_regime : option string)
  (hk : bool) (Hw : 0 <= weeks) :
  let '(_, nw, tn) := get_regime_with_hysteresis current_score previous_regime weeks hk in
  0 <= nw < CONFIRM_WEEKS
  /\ match tn with NotePending _ _ => nw = 1 | _ => nw = 0 end.
Proof.
  unfold get_regime_with_hysteresis, hysteresis_branch, CONFIRM_WEEKS.
  destruct hk; [simpl; lia|].
  destruct previous_regime as [[|a s]|]; [| |simpl; lia]; [simpl; lia|].
  repeat match goal with
         | |- context [if ?c then _ else _] => let E := fresh "E" in destruct c eqn:E
         end; simpl; try lia.
Qed.

Lemma pending_below_window_witness :
  let '(_, nw, tn) := get_regime_with_hysteresis 50 (Some "ON"%string) 0 false in
  0 <= nw < CONFIRM_WEEKS
  /\ match tn with NotePending _ _ => nw = 1 | _ => nw = 0 end.
Proof. apply (pending_below_window 50 0 (Some "ON"%string) false). lia. Defined.

(** Close a case of [split_tests]: either the order facts are contradictory
    or the goal is an inequality between the two sub-scores. *)
Ltac close_case := try lia; exfalso; lra.

(** C8: each scorer is monotone in its input: FX non-increasing in
    |currency change|; credit non-increasing in the spread level (fixed
    delta) and in the weekly spread delta (fixed level); global
    non-increasing in VIX (fixed S&P change) and non-decreasing in the S&P
    change (fixed VIX); liquidity non-decreasing in the volume ratio. *)
Theorem scorer_monotonicity :
  (forall x y : Q, (Qabs x <= Qabs y)%Q -> score_doviz y <= score_doviz x)
  /\ (forall l1 l2 d : Q, (l1 <= l2)%Q -> score_cds l2 d <= score_cds l1 d)
  /\ (forall l d1 d2 : Q, (d1 <= d2)%Q -> score_cds l d2 <= score_cds l d1)
  /\ (forall v1 v2 s : Q, (v1 <= v2)%Q -> score_global v2 s <= score_global v1 s)
  /\ (forall v s1 s2 : Q, (s1 <= s2)%Q -> score_global v s1 <= score_global v s2)
  /\ (forall r1 r2 : Q, (r1 <= r2)%Q -> score_likidite r1 <= score_likidite r2).
Proof.
  repeat split; intros.
  - unfold score_doviz.
    generalize dependent (Qabs x). generalize dependent (Qabs y). intros.
    split_tests; close_case.
  - unfold score_cds. split_tests; close_case.
  - unfold score_cds. split_tests; close_case.
  - unfold score_global. split_tests; close_case.
  - unfold score_global. split_tests; close_case.
  - unfold score_likidite. split_tests; close_case.
Qed.

Lemma base_budget_shape (r : string) (bp : Z) (br : Q) (be : string) :
  BASE_BUDGETS r = Some (bp, br, be) -> 2 <= bp /\ be <> CAUTIOUS.
Proof.
  unfold BASE_BUDGETS.
  repeat match goal with
         | |- context [String.eqb ?a ?b] => destruct (String.eqb a b)
         end; intro H; try discriminate H; injection H as <- <- <-;
  split; try lia; unfold CAUTIOUS; discriminate.
Qed.

(** C9: for every regime's base budget and every soft reduction in
    (0, 0.5], the adjusted positions are max(2, floor(base_positions *
    (1 - reduction))), the adjusted risk is round(base_risk * (1 -
    reduction), 1), and the entry stance is the cautious label exactly when
    the reduction is >= 0.3; for every reduction the adjusted positions are
    at least 2; OFF's base (4 positions) under a 0.5 reduction gives 2
    positions; a reduction of 0 returns the base budget unchanged. *)
Theorem budget_adjustment :
  (forall (r : string) (bp : Z) (br : Q) (be : string) (sr : Q),
     BASE_BUDGETS r = Some (bp, br, be) -> (0 < sr <= 1#2)%Q ->
     let '(adj_pos, adj_risk, adj_entry) := adjust_budget (bp, br, be) sr in
     adj_pos = Z.max 2 (Qfloor (inject_Z bp * (1 - sr)))
     /\ adj_risk = py_round1 (br * (1 - sr))
     /\ (adj_entry = CAUTIOUS <-> (3#10 <= sr)%Q)
     /\ 2 <= adj_pos)
  /\ (forall (r : string) (b : Z * Q * string) (sr : Q),
        BASE_BUDGETS r = Some b -> 2 <= fst (fst (adjust_budget b sr)))
  /\ (BASE_BUDGETS "OFF" = Some (4, 1%Q, "SINIRLI"%string)
      /\ fst (fst (adjust_budget (4, 1%Q, "SINIRLI"%string) (1#2))) = 2)
  /\ (forall (r : string) (b : Z * Q * string),
        BASE_BUDGETS r = Some b -> adjust_budget b 0 = b).
Proof.
  split; [|split; [|split]].
  - intros r bp br be sr Hb [H0 H1].
    destruct (base_budget_shape r bp br be Hb) as [Hp Hne].
    unfold adjust_budget.
    rewrite (proj2 (qlt_true_iff 0 sr) H0).
    destruct (qle (3#10) sr) eqn:E.
    + apply qle_true in E. repeat split; try lia; auto.
    + apply qle_false in E. repeat split; try lia.
      * intro Hc. contradiction.
      * intro Hc. exfalso. lra.
  - intros r [[bp br] be] sr Hb.
    destruct (base_budget_shape r bp br be Hb) as [Hp _].
    unfold adjust_budget. destruct (qlt 0 sr); simpl; lia.
  - split; reflexivity.
  - intros r [[bp br] be] Hb. reflexivity.
Qed.

(** ** Further properties of the engine *)

(** [bar10] always draws ten cells, whatever the integer score (also out of
    [0,100]); the filled cells are the clamped score's tens. *)
Theorem bar10_shape (score : Z) :
  length (bar10 score) = 10%nat
  /\ count_occ bar_cell_eq_dec (bar10 score) Full
     = Z.to_nat (Z.max 0 (Z.min 100 score) / 10).
Proof.
  unfold bar10. cbv zeta.
  set (f := Z.max 0 (Z.min 100 score) / 10).
  assert (Hf : 0 <= f <= 10).
  { subst f. split; [apply Z.div_pos; lia|].
    apply Z.div_le_upper_bound; lia. }
  split.
  - rewrite length_app, !repeat_length. lia.
  - rewrite count_occ_app.
    assert (HB : forall n, count_occ bar_cell_eq_dec (repeat Blank n) Full = 0%nat)
      by (induction n; simpl; auto).
    assert (HF : forall n, count_occ bar_cell_eq_dec (repeat Full n) Full = n)
      by (induction n; simpl; auto).
    rewrite HB, HF. lia.
Qed.

(** The soft reduction of a cycle is 0.25 when K4 fails plus 0.15 when K5
    fails: one of 0, 0.15, 0.25, 0.4, so the clamp to [0, 0.5] never cuts. *)
Theorem soft_reduction_values (c : Checks) :
  (soft_reduction c == (if K4 c then 0 else 1#4) + (if K5 c then 0 else 3#20))%Q
  /\ (0 <= soft_reduction c <= 1#2)%Q.
Proof.
  destruct c as [k1 k2 k3 k4 k5]; destruct k4, k5; vm_compute; split; try reflexivity;
  split; discriminate.
Qed.

Lemma soft_reduction_range (c : Checks) : (0 <= soft_reduction c <= 1#2)%Q.
Proof.
  destruct c as [k1 k2 k3 k4 k5]; destruct k4, k5; vm_compute; split; discriminate.
Qed.

Lemma base_budget_cycle (o : Observation) (p : string) (w : Z) (ovr : bool) :
  base_budget (cycle o p w ovr) = BASE_BUDGETS (regime (cycle o p w ovr))
  /\ adjusted_budget (cycle o p w ovr)
     = match BASE_BUDGETS (regime (cycle o p w ovr)) with
       | Some b => Some (adjust_budget b (soft_reduction (gates o)))
       | None => None
       end.
Proof.
  unfold cycle. destruct (get_regime_with_hysteresis _ _ _ _) as [[r nw] tn]. split; reflexivity.
Qed.

(** The entry stance of a cycle's adjusted budget is the cautious label
    exactly when both soft gates K4 and K5 fail (reduction 0.4); when at
    least one of them passes (one soft veto of 0.25 or 0.15, or none) the
    stance is the regime's own base label. *)
Theorem cautious_iff_both_soft_vetoes (o : Observation) (p : string) (w : Z) (ovr : bool) :
  match base_budget (cycle o p w ovr), adjusted_budget (cycle o p w ovr) with
  | Some (_, _, base_entry), Some (_, _, entry) =>
      (entry = CAUTIOUS <-> K4 (gates o) = false /\ K5 (gates o) = false)
      /\ (K4 (gates o) = true \/ K5 (gates o) = true -> entry = base_entry)
  | _, _ => True
  end.
Proof.
  destruct (base_budget_cycle o p w ovr) as [-> ->].
  destruct (BASE_BUDGETS (regime (cycle o p w ovr))) as [[[bp br] be]|] eqn:Hb; [|exact I].
  destruct (base_budget_shape _ _ _ _ Hb) as [_ Hne].
  unfold adjust_budget, soft_reduction.
  unfold CAUTIOUS in Hne.
  destruct (K4 (gates o)), (K5 (gates o)); vm_compute; split;
  try (intros [H | H]; first [reflexivity | discriminate H]);
  split; intro H;
  first [ reflexivity | split; reflexivity | contradiction | destruct H; discriminate ].
Qed.

Lemma scorer_ranges_aux :
  (forall x : Q, 0 <= score_doviz x <= 100)
  /\ (forall l d : Q, 0 <= score_cds l d <= 100)
  /\ (forall v s : Q, 0 <= score_global v s <= 100)
  /\ (forall r : Q, 0 <= score_likidite r <= 100).
Proof.
  repeat split; intros;
  unfold score_doviz, score_cds, score_global, score_likidite; cbv zeta;
  repeat match goal with
         | |- context [qlt ?a ?b] => destruct (qlt a b)
         | |- context [qle ?a ?b] => destruct (qle a b)
         end; lia.
Qed.

(** Every factor scorer returns a sub-score in [0,100]. *)
Theorem scorer_ranges :
  (forall x : Q, 0 <= score_doviz x <= 100)
  /\ (forall l d : Q, 0 <= score_cds l d <= 100)
  /\ (forall v s : Q, 0 <= score_global v s <= 100)
  /\ (forall r : Q, 0 <= score_likidite r <= 100).
Proof. exact scorer_ranges_aux. Qed.

(** [py_round] of a number equal to an integer is that integer. *)
Lemma py_round_int (x : Q) (n : Z) : (x == inject_Z n)%Q -> py_round x = n.
Proof.
  intro H. unfold py_round. cbv zeta.
  assert (Hf : Qfloor x = n) by (rewrite H; apply Qfloor_Z).
  rewrite Hf.
  destruct (qlt (x - inject_Z n) (1#2)) eqn:E; [reflexivity|].
  apply qlt_false in E. exfalso. lra.
Qed.

(** [py_round] is monotone. *)
Lemma py_round_mono (x y : Q) : (x <= y)%Q -> py_round x <= py_round y.
Proof.
  intro Hxy.
  assert (Hb : forall z, Qfloor z <= py_round z <= Qfloor z + 1).
  { intro z. unfold py_round. cbv zeta.
    destruct (qlt _ _); [lia|]. destruct (qlt _ _); [lia|].
    destruct (Z.even _); lia. }
  pose proof (Qfloor_resp_le x y Hxy) as Hfl.
  destruct (Z.eq_dec (Qfloor x) (Qfloor y)) as [Heq|Hne].
  - unfold py_round. cbv zeta. rewrite <- Heq.
    set (f := Qfloor x).
    split_tests; try lia; destruct (Z.even f); try lia; exfalso; lra.
  - pose proof (Hb x). pose proof (Hb y). lia.
Qed.

(** [py_round] of a number at most an integer is at most that integer. *)
Lemma py_round_le_int (x : Q) (n : Z) : (x <= inject_Z n)%Q -> py_round x <= n.
Proof.
  intro H. rewrite <- (py_round_int (inject_Z n) n) by reflexivity.
  now apply py_round_mono.
Qed.

Lemma total_mono (s1 s2 : Scores) :
  sc_doviz s1 <= sc_doviz s2 -> sc_cds s1 <= sc_cds s2 -> sc_global s1 <= sc_global s2 ->
  sc_faiz s1 <= sc_faiz s2 -> sc_likidite s1 <= sc_likidite s2 ->
  total s1 <= total s2.
Proof.
  intros H1 H2 H3 H4 H5. unfold total. apply py_round_mono.
  rewrite Zle_Qle in H1, H2, H3, H4, H5.
  unfold W_doviz, W_cds, W_global, W_faiz, W_likidite. lra.
Qed.

Lemma total_uniform (s : Z) :
  total {| sc_doviz := s; sc_cds := s; sc_global := s; sc_faiz := s; sc_likidite := s |} = s.
Proof.
  unfold total. apply py_round_int. simpl.
  unfold W_doviz, W_cds, W_global, W_faiz, W_likidite. lra.
Qed.

(** The total score is non-decreasing in each of the five sub-scores. *)
Theorem total_monotone (s1 s2 : Scores)
  (H1 : sc_doviz s1 <= sc_doviz s2) (H2 : sc_cds s1 <= sc_cds s2)
  (H3 : sc_global s1 <= sc_global s2) (H4 : sc_faiz s1 <= sc_faiz s2)
  (H5 : sc_likidite s1 <= sc_likidite s2) :
  total s1 <= total s2.
Proof. exact (total_mono s1 s2 H1 H2 H3 H4 H5). Qed.

Lemma total_monotone_witness :
  sc_doviz (scores baseline) <= 100 /\
  total (scores baseline)
  <= total {| sc_doviz := 100; sc_cds := 100; sc_global := 100; sc_faiz := 60; sc_likidite := 70 |}.
Proof.
  split; [vm_compute; discriminate|].
  apply total_monotone; vm_compute; discriminate.
Defined.

(** The weights sum to 1: five equal sub-scores give that score as total
    (all 100 gives 100, all 0 gives 0). *)
Theorem total_of_equal_scores (s : Z) :
  total {| sc_doviz := s; sc_cds := s; sc_global := s; sc_faiz := s; sc_likidite := s |} = s.
Proof. exact (total_uniform s). Qed.

(** With the rate proxy in the slider's range [0,100], the total score of a
    cycle is in [0,100]. *)
Theorem total_score_range (o : Observation) (p : string) (w : Z) (ovr : bool)
  (Hf : 0 <= faiz_score o <= 100) :
  0 <= d_total (cycle o p w ovr) <= 100.
Proof.
  assert (Ht : d_total (cycle o p w ovr) = total (scores o)).
  { unfold cycle. destruct (get_regime_with_hysteresis _ _ _ _) as [[r nw] tn]. reflexivity. }
  rewrite Ht.
  destruct scorer_ranges_aux as (Rd & Rc & Rg & Rl).
  pose proof (Rd (usdtry_wchg o)). pose proof (Rc (cds_level o) (cds_wdelta o)).
  pose proof (Rg (vix_last o) (sp500_wchg o)). pose proof (Rl (volume_ratio o)).
  split.
  - rewrite <- (total_uniform 0). apply total_mono; simpl; lia.
  - rewrite <- (total_uniform 100). apply total_mono; simpl; lia.
Qed.

Lemma total_score_range_witness :
  0 <= faiz_score baseline <= 100 /\ 0 <= d_total (cycle baseline "ON" 0 false) <= 100.
Proof.
  split; [vm_compute; split; discriminate|].
  apply total_score_range. vm_compute. split; discriminate.
Defined.

(** Split on the string tests of the regime machine, rewriting a matched
    regime to its literal, and on its integer tests. *)
Ltac split_regime :=
  repeat match goal with
  | |- context [String.eqb ?p ?lit] =>
      let E := fresh "E" in
      destruct (String.eqb p lit) eqn:E;
      [apply String.eqb_eq in E; rewrite ?E in *|]
  | |- context [?a <? ?b] => let E := fresh "E" in destruct (a <? b) eqn:E
  | |- context [?a <=? ?b] => let E := fresh "E" in destruct (a <=? b) eqn:E
  end.

Lemma no_kill_not_offkill (s w : Z) (prev : option string) :
  fst (hyst_state s prev w false) <> "OFF-KILL"%string.
Proof.
  unfold hyst_state, get_regime_with_hysteresis, hysteresis_branch, immediate_regime.
  destruct prev as [[|a t]|]; split_regime; simpl; try discriminate.
  apply String.eqb_neq. assumption.
Qed.

(** A cycle ends in OFF-KILL exactly when its hard kill is set (a failing
    hard gate or the manual override): without hard kill no previous regime,
    not even OFF-KILL or an unknown one, leads to OFF-KILL. *)
Theorem offkill_iff_hard_kill (o : Observation) (p : string) (w : Z) (ovr : bool) :
  regime (cycle o p w ovr) = "OFF-KILL"%string <-> hard_kill (gates o) ovr = true.
Proof.
  pose proof (regime_cycle o p w ovr) as E.
  destruct (hard_kill (gates o) ovr).
  - unfold hyst_state in E. simpl in E. injection E as -> _. split; reflexivity.
  - split; [|discriminate]. intro H.
    exfalso. apply (no_kill_not_offkill (total (scores o)) w (if String.eqb p "" then None else Some p)).
    rewrite <- E. simpl. exact H.
Qed.

(** For a previous regime chosen in the sidebar ("", ON, NEUTRAL, OFF or
    OFF-KILL), the new regime is one of the four regimes, so the lookup of
    its base budget never fails. *)
Lemma hyst_known (s w : Z) (prev : option string) (hk : bool) :
  In prev [None; Some ""; Some "ON"; Some "NEUTRAL"; Some "OFF"; Some "OFF-KILL"]%string ->
  In (fst (hyst_state s prev w hk)) ["ON"; "NEUTRAL"; "OFF"; "OFF-KILL"]%string.
Proof.
  intro Hp.
  unfold hyst_state, get_regime_with_hysteresis, hysteresis_branch, immediate_regime.
  destruct hk; [simpl; tauto|].
  destruct Hp as [<- | [<- | [<- | [<- | [<- | [<- | []]]]]]]; simpl;
  repeat match goal with
         | |- context [?a <? ?b] => destruct (a <? b)
         | |- context [?a <=? ?b] => destruct (a <=? b)
         end; simpl; tauto.
Qed.

Theorem regime_known (o : Observation) (p : string) (w : Z) (ovr : bool)
  (Hp : In p [""; "ON"; "NEUTRAL"; "OFF"; "OFF-KILL"]%string) :
  In (regime (cycle o p w ovr)) ["ON"; "NEUTRAL"; "OFF"; "OFF-KILL"]%string
  /\ base_budget (cycle o p w ovr) <> None.
Proof.
  assert (Hin : In (regime (cycle o p w ovr)) ["ON"; "NEUTRAL"; "OFF"; "OFF-KILL"]%string).
  { change (regime (cycle o p w ovr)) with (fst (regime (cycle o p w ovr), new_weeks (cycle o p w ovr))).
    rewrite (regime_cycle o p w ovr). apply hyst_known.
    destruct Hp as [<- | [<- | [<- | [<- | [<- | []]]]]]; simpl; tauto. }
  split; [exact Hin|].
  destruct (base_budget_cycle o p w ovr) as [-> _].
  destruct Hin as [<- | [<- | [<- | [<- | []]]]]; discriminate.
Qed.

Lemma regime_known_witness :
  In ""%string [""; "ON"; "NEUTRAL"; "OFF"; "OFF-KILL"]%string /\
  In (regime (cycle baseline "" 0 false)) ["ON"; "NEUTRAL"; "OFF"; "OFF-KILL"]%string
  /\ base_budget (cycle baseline "" 0 false) <> None.
Proof.
  split; [left; reflexivity|].
  apply regime_known. left. reflexivity.
Defined.

(** A previous regime outside the sidebar's options (not "", ON, NEUTRAL,
    OFF, OFF-KILL) is returned unchanged with 0 pending weeks when there is
    no hard kill, and the lookup of its base budget fails ([KeyError] in
    [BASE_BUDGETS[regime]]). *)
Theorem unknown_previous_regime (o : Observation) (p : string) (w : Z) (ovr : bool)
  (Hp : ~ In p [""; "ON"; "NEUTRAL"; "OFF"; "OFF-KILL"]%string)
  (Hk : hard_kill (gates o) ovr = false) :
  regime (cycle o p w ovr) = p /\ new_weeks (cycle o p w ovr) = 0
  /\ base_budget (cycle o p w ovr) = None /\ adjusted_budget (cycle o p w ovr) = None.
Proof.
  assert (N : forall q, In q [""; "ON"; "NEUTRAL"; "OFF"; "OFF-KILL"]%string -> String.eqb p q = false).
  { intros q Hq. apply String.eqb_neq. intros ->. contradiction. }
  assert (N1 := N "ON"%string ltac:(simpl; tauto)).
  assert (N2 := N "NEUTRAL"%string ltac:(simpl; tauto)).
  assert (N3 := N "OFF"%string ltac:(simpl; tauto)).
  assert (N4 := N "OFF-KILL"%string ltac:(simpl; tauto)).
  assert (N0 := N ""%string ltac:(simpl; tauto)).
  assert (HB : BASE_BUDGETS p = None) by (unfold BASE_BUDGETS; now rewrite N1, N2, N3, N4).
  pose proof (regime_cycle o p w ovr) as E.
  rewrite Hk, N0 in E.
  unfold hyst_state, get_regime_with_hysteresis, hysteresis_branch in E.
  destruct p as [|a t]; [discriminate N0|].
  rewrite N1, N2, N3, N4 in E. injection E as Er Ew.
  destruct (base_budget_cycle o (String a t) w ovr) as [Hb Ha].
  rewrite Er in Hb, Ha. rewrite HB in Hb, Ha.
  repeat split; assumption.
Qed.

Lemma unknown_previous_regime_witness :
  regime (cycle baseline "LEGACY" 0 false) = "LEGACY"%string
  /\ new_weeks (cycle baseline "LEGACY" 0 false) = 0
  /\ base_budget (cycle baseline "LEGACY" 0 false) = None
  /\ adjusted_budget (cycle baseline "LEGACY" 0 false) = None.
Proof.
  apply unknown_previous_regime.
  - simpl. intros [H | [H | [H | [H | [H | []]]]]]; discriminate H.
  - vm_compute. reflexivity.
Defined.

(** Without hard kill the hysteresis regimes move at most one step per
    cycle, and only across their thresholds: from ON only to NEUTRAL (score
    below 57), from NEUTRAL to ON (above 63) or OFF (below 37), from OFF only
    to NEUTRAL (above 43); ON and OFF never swap directly. *)
Theorem one_step_transitions (s w : Z) :
  (let r := fst (hyst_state s (Some "ON"%string) w false) in
   r = "ON"%string \/ (r = "NEUTRAL"%string /\ s < 57))
  /\ (let r := fst (hyst_state s (Some "NEUTRAL"%string) w false) in
      r = "NEUTRAL"%string \/ (r = "ON"%string /\ 63 < s) \/ (r = "OFF"%string /\ s < 37))
  /\ (let r := fst (hyst_state s (Some "OFF"%string) w false) in
      r = "OFF"%string \/ (r = "NEUTRAL"%string /\ 43 < s)).
Proof.
  unfold hyst_state, get_regime_with_hysteresis, hysteresis_branch,
    ON_TO_NEUTRAL, NEUTRAL_TO_ON, NEUTRAL_TO_OFF, OFF_TO_NEUTRAL, CONFIRM_WEEKS; simpl.
  repeat match goal with
         | |- context [?a <? ?b] => let E := fresh "E" in destruct (a <? b) eqn:E
         | |- context [?a <=? ?b] => let E := fresh "E" in destruct (a <=? b) eqn:E
         end; simpl;
  rewrite ?Z.ltb_lt, ?Z.ltb_ge, ?Z.leb_le, ?Z.leb_gt in *;
  repeat split; (left; reflexivity) || (right; split; [reflexivity | lia])
  || (right; left; split; [reflexivity | lia]) || (right; right; split; [reflexivity | lia]).
Qed.

(** Without hard kill a hysteresis regime changes in a cycle exactly when
    its move condition holds and at least one pending week is carried in;
    when the move condition does not hold, the regime stays with its pending
    weeks reset to 0. *)
Theorem regime_change_needs_confirmation :
  (forall s w, fst (hyst_state s (Some "ON"%string) w false) <> "ON"%string
               <-> s < 57 /\ 1 <= w)
  /\ (forall s w, fst (hyst_state s (Some "NEUTRAL"%string) w false) <> "NEUTRAL"%string
                  <-> (63 < s \/ s < 37) /\ 1 <= w)
  /\ (forall s w, fst (hyst_state s (Some "OFF"%string) w false) <> "OFF"%string
                  <-> 43 < s /\ 1 <= w)
  /\ (forall s w, 57 <= s -> hyst_state s (Some "ON"%string) w false = ("ON"%string, 0))
  /\ (forall s w, 37 <= s <= 63 ->
        hyst_state s (Some "NEUTRAL"%string) w false = ("NEUTRAL"%string, 0))
  /\ (forall s w, s <= 43 -> hyst_state s (Some "OFF"%string) w false = ("OFF"%string, 0)).
Proof.
  unfold hyst_state, get_regime_with_hysteresis, hysteresis_branch,
    ON_TO_NEUTRAL, NEUTRAL_TO_ON, NEUTRAL_TO_OFF, OFF_TO_NEUTRAL, CONFIRM_WEEKS; cbn.
  split; [|split; [|split; [|split; [|split]]]]; intros;
  repeat match goal with
         | |- context [?a <? ?b] => let E := fresh "E" in destruct (a <? b) eqn:E
         | |- context [?a <=? ?b] => let E := fresh "E" in destruct (a <=? b) eqn:E
         end; cbn;
  rewrite ?Z.ltb_lt, ?Z.ltb_ge, ?Z.leb_le, ?Z.leb_gt in *;
  try (split; intro H);
  first [ reflexivity
        | lia
        | discriminate
        | exfalso; apply H; reflexivity
        | exfalso; lia ].
Qed.

(** The error list of [validate_data], field by field. *)
Lemma validate_errors (u c d v s : Q) :
  errors (validate_data u c d v s)
  = (if qlt USDTRY_MAX_WEEKLY (Qabs u) then [ErrUsdtryHigh u] else [])
    ++ (if qlt c CDS_MIN then [ErrCdsLow c] else if qlt CDS_MAX c then [ErrCdsHigh c] else [])
    ++ (if qlt CDS_MAX_WEEKLY (Qabs d) then [ErrCdsDeltaHigh d] else [])
    ++ (if qlt v VIX_MIN then [ErrVixLow v] else if qlt VIX_MAX v then [ErrVixHigh v] else []).
Proof.
  unfold validate_data.
  destruct (qlt USDTRY_MAX_WEEKLY (Qabs u)), (qlt USDTRY_WARN_WEEKLY (Qabs u)),
    (qlt CDS_MAX_WEEKLY (Qabs d)), (qlt CDS_WARN_WEEKLY (Qabs d)); cbv beta iota zeta;
  lazymatch goal with
  | |- errors (match ?X with _ => _ end) = _ => destruct X
  end; cbn [errors];
  destruct (qlt c CDS_MIN), (qlt CDS_MAX c), (qlt v VIX_MIN), (qlt VIX_MAX v); reflexivity.
Qed.

(** [validate_data] reports no error exactly when every field is within its
    limits: |currency change| <= 10%, 50 <= spread <= 1500, |spread delta|
    <= 150, 8 <= VIX <= 60; the cross-field checks only ever warn. *)
Theorem no_errors_iff_in_limits (u c d v s : Q) :
  errors (validate_data u c d v s) = []
  <-> (Qabs u <= 1#10 /\ 50 <= c <= 1500 /\ Qabs d <= 150 /\ 8 <= v <= 60)%Q.
Proof.
  rewrite validate_errors.
  unfold USDTRY_MAX_WEEKLY, CDS_MIN, CDS_MAX, CDS_MAX_WEEKLY, VIX_MIN, VIX_MAX.
  generalize dependent (Qabs u). generalize dependent (Qabs d). intros.
  split_tests; simpl; split; intro H; try discriminate;
  repeat match goal with Hc : _ /\ _ |- _ => destruct Hc end;
  try (exfalso; lra); repeat split; lra.
Qed.

(** A soft reduction of at most 1 never raises a regime's base budget. *)
Lemma adjust_budget_le (r : string) (bp : Z) (br : Q) (be : string) (sr : Q) :
  BASE_BUDGETS r = Some (bp, br, be) -> (0 <= sr <= 1)%Q ->
  let '(ap, ar, _) := adjust_budget (bp, br, be) sr in
  2 <= ap <= bp /\ (ar <= br)%Q.
Proof.
  intros Hb Hsr.
  destruct (base_budget_shape r bp br be Hb) as [Hp _].
  assert (Hbr : (br * 10 == inject_Z (py_round (br * 10)))%Q
                /\ (0 <= br)%Q).
  { revert Hb. unfold BASE_BUDGETS.
    repeat match goal with
           | |- context [String.eqb ?a ?b] => destruct (String.eqb a b)
           end; intro H; try discriminate H; injection H as <- <- <-;
    vm_compute; split; try reflexivity; discriminate. }
  destruct Hbr as [Hbr10 Hbr0].
  unfold adjust_budget.
  destruct (qlt 0 sr); [|split; [lia | apply Qle_refl]].
  split; [split|].
  - lia.
  - apply Z.max_lub; [lia|].
    pose proof (Qfloor_le (inject_Z bp * (1 - sr))) as Hf.
    assert (Hq : (inject_Z (Qfloor (inject_Z bp * (1 - sr))) <= inject_Z bp)%Q).
    { apply Qle_trans with (1 := Hf).
      assert (H0 : (inject_Z 0 <= inject_Z bp)%Q) by (rewrite <- Zle_Qle; lia).
      change (inject_Z 0) with 0%Q in H0.
      setoid_replace (inject_Z bp * (1 - sr))%Q with (inject_Z bp - inject_Z bp * sr)%Q by ring.
      assert (0 <= inject_Z bp * sr)%Q by (apply Qmult_le_0_compat; lra).
      lra. }
    rewrite <- Zle_Qle in Hq. exact Hq.
  - unfold py_round1.
    assert (Hle : py_round (br * (1 - sr) * 10) <= py_round (br * 10)).
    { apply py_round_le_int. rewrite <- Hbr10.
      setoid_replace (br * (1 - sr) * 10)%Q with (br * 10 - br * sr * 10)%Q by ring.
      assert (0 <= br * sr)%Q by (apply Qmult_le_0_compat; lra).
      lra. }
    rewrite Zle_Qle in Hle.
    apply Qle_trans with (inject_Z (py_round (br * 10)) / 10)%Q.
    + apply Qmult_le_compat_r; [exact Hle | vm_compute; discriminate].
    + rewrite <- Hbr10. field_simplify. lra.
Qed.

(** The soft vetoes of a cycle never raise its budget: the adjusted budget
    has between 2 and the base number of positions, and at most the base
    risk. *)
Theorem budget_never_raised (o : Observation) (p : string) (w : Z) (ovr : bool) :
  match base_budget (cycle o p w ovr), adjusted_budget (cycle o p w ovr) with
  | Some (bp, br, _), Some (ap, ar, _) => 2 <= ap <= bp /\ (ar <= br)%Q
  | _, _ => True
  end.
Proof.
  destruct (base_budget_cycle o p w ovr) as [-> ->].
  destruct (BASE_BUDGETS (regime (cycle o p w ovr))) as [[[bp br] be]|] eqn:Hb; [|exact I].
  assert (Hsr : (0 <= soft_reduction (gates o) <= 1)%Q).
  { pose proof (soft_reduction_range (gates o)). lra. }
  pose proof (adjust_budget_le _ _ _ _ _ Hb Hsr) as H.
  destruct (adjust_budget (bp, br, be) (soft_reduction (gates o))) as [[ap ar] ae].
  exact H.
Qed.
